(** * scrab: the pickup-order backend and the upload demo, embedded in Rocq

    The development follows the layout of the repository:

    - [Backend/models/user.js], [Backend/models/order.js]: the two mongoose
      schemas, as records ([User.t], [Order.t]);
    - the auth routes (send-otp, verify-otp), which app.js mounts from
      [./routes/auth] and which follow the order routes in
      [Backend/routes/order.js]: module [Auth];
    - the order routes of [Backend/routes/order.js] (new order, order
      history): module [Orders];
    - [Backend/routes/admin.js] (all orders, status change): module [Admin];
    - [scrbbbb/app.js] (upload demo with a JSON metadata file): module [Demo].

    The order routes and the admin routes call the functions of the Order
    model through named imports, off the model; see [Db.create].

    A handler is a function from the database (or the file system), the
    request and the readings it takes from the environment ([Date.now()],
    the random source) to the new database and the outcome of the request.
    A collection is the list of its documents in insertion order. *)

From Stdlib Require Import List String Ascii ZArith NArith Bool Lia.
From Stdlib Require Import DecimalString DecimalZ.
Import ListNotations.
Open Scope string_scope.

(** ** JavaScript values the handlers test *)

Module JS.

(** A field of a parsed request body: [undefined] when the request does
    not carry it, else the string it carries (multipart text fields, route
    parameters and the string fields of a JSON body). *)
Definition field := option string.

(** JavaScript truthiness on such a value: [undefined] and the empty
    string are falsy, every other string is truthy. *)
Definition truthy (v : field) : bool :=
  match v with
  | None => false
  | Some EmptyString => false
  | Some (String _ _) => true
  end.

(** [!v] *)
Definition not (v : field) : bool := negb (truthy v).

(** [a === b] on values that are [undefined] or strings. *)
Definition strict_eq (a b : field) : bool :=
  match a, b with
  | None, None => true
  | Some x, Some y => String.eqb x y
  | _, _ => false
  end.

(** What makes an [async] handler reject instead of answering. *)
Inductive error : Type :=
| CastError (path : string)
| ValidationError (path : string)
| RangeError
| TypeError
| MulterError (code : string)
| DetachedCall (fn : string).

(** A value of a parsed request body, as far as a handler that only tests
    it can tell it from another: [undefined], a string, or any other value
    (null, a boolean, a number, an array, an object), of which the
    truthiness is kept. *)
Inductive value : Type :=
| Undefined
| Str (s : string)
| Other (truthy : bool).

Definition truthy_value (v : value) : bool :=
  match v with
  | Undefined => false
  | Str s => truthy (Some s)
  | Other b => b
  end.

(** [!v] *)
Definition not_value (v : value) : bool := negb (truthy_value v).

End JS.

(** The outcome of a request: the status and body handed to [res.json] or
    [res.send] (status 200 unless [res.status] was called), or the error
    the request fails with before the handler writes an answer. *)
Inductive outcome (B : Type) : Type :=
| Responded (status : nat) (body : B)
| Rejected (e : JS.error).
Arguments Responded {B} status body.
Arguments Rejected {B} e.

(** ** Identifiers

    A mongoose [ObjectId] is twelve bytes, compared bytewise; it is kept as
    the number those bytes denote, so that [sort('-_id')] is the descending
    order on [N]. *)
Definition ObjectId := N.

(** ** models/user.js *)

Module User.

(** [mobile] is required; [otp] and [otpExpiry] may be unset. A [Date] is
    kept as its milliseconds since the epoch. *)
Record t : Type := mk {
  _id : ObjectId;
  mobile : string;
  otp : option string;
  otpExpiry : option Z
}.

End User.

(** ** The otp-generator package, as called from the send-otp route

    The package is a dependency of the backend ([require('otp-generator')]
    above the auth routes), not one of its source files. [generate] follows the
    release of the package whose option names the call uses
    ([upperCaseAlphabets], [specialChars]): the allowed characters are the
    concatenation of the enabled classes, and each character of the result
    is drawn from them with [crypto.randomInt]. *)

Module OtpGenerator.

Definition digits : string := "0123456789".
Definition lowerCaseAlphabets : string := "abcdefghijklmnopqrstuvwxyz".
Definition upperCaseAlphabets : string := "ABCDEFGHIJKLMNOPQRSTUVWXYZ".
Definition specialChars : string := "#!&@".

(** The options object: a key is absent ([None]) or holds a boolean. *)
Record options : Type := {
  opt_digits : option bool;
  opt_lowerCaseAlphabets : option bool;
  opt_upperCaseAlphabets : option bool;
  opt_specialChars : option bool
}.

(** A class of characters is in use unless its key is present and false:
    every key defaults to [true]. *)
Definition enabled (key : option bool) : bool :=
  match key with
  | Some b => b
  | None => true
  end.

Definition allowsChars (o : options) : string :=
  (if enabled (opt_digits o) then digits else "")
  ++ (if enabled (opt_lowerCaseAlphabets o) then lowerCaseAlphabets else "")
  ++ (if enabled (opt_upperCaseAlphabets o) then upperCaseAlphabets else "")
  ++ (if enabled (opt_specialChars o) then specialChars else "").

(** The character a draw [k] of [crypto.randomInt(0, n)] selects, [n] being
    the number of allowed characters. *)
Definition charAt (chars : list ascii) (k : nat) : ascii :=
  nth (k mod List.length chars) chars "0"%char.

(** [generate(length, options)]. [rnd i] is the draw behind the [i]-th
    character appended to the password; a draw the package discards before
    appending does not appear in [rnd]. A [length] of 0 is replaced by 10;
    with no class enabled [crypto.randomInt(0, 0)] throws. *)
Definition generate (length : nat) (o : options) (rnd : nat -> nat)
  : option string :=
  let length := if Nat.eqb length 0 then 10 else length in
  match list_ascii_of_string (allowsChars o) with
  | [] => None
  | chars =>
      Some (string_of_list_ascii
              (map (fun i => charAt chars (rnd i)) (seq 0 length)))
  end.

Definition is_digit (c : ascii) : bool :=
  let n := nat_of_ascii c in (48 <=? n)%nat && (n <=? 57)%nat.

Definition is_lower (c : ascii) : bool :=
  let n := nat_of_ascii c in (97 <=? n)%nat && (n <=? 122)%nat.

(** "4-digit numeric": four characters, each a decimal digit. *)
Definition numeric4 (s : string) : bool :=
  Nat.eqb (String.length s) 4
  && forallb is_digit (list_ascii_of_string s).

End OtpGenerator.

(** ** models/order.js *)

Module Order.

Section Schema.

(** [Number] is the type of JavaScript numbers; [C] is what the
    [customer] path holds: a reference in a stored document, the
    referenced document after [populate]. No path is required, so each
    may be unset. *)
Variables Number C : Type.

Record t : Type := mk {
  _id : ObjectId;
  customer : C;
  category : option string;
  weight : option Number;
  photos : list string;
  date : option string;
  time : option string;
  status : string
}.

End Schema.

Arguments mk {Number C}.
Arguments _id {Number C}.
Arguments customer {Number C}.
Arguments category {Number C}.
Arguments weight {Number C}.
Arguments photos {Number C}.
Arguments date {Number C}.
Arguments time {Number C}.
Arguments status {Number C}.

(** A stored order refers to its customer by identifier. *)
Definition stored (Number : Type) : Type := t Number (option ObjectId).



End Order.

(** ** The database *)

Module Db.

Section Collections.

Variable Number : Type.

(** The two collections and the next identifier the driver hands out:
    identifiers issued by one driver process grow with time. *)
Record t : Type := mk {
  users : list User.t;
  orders : list (Order.stored Number);
  next_id : ObjectId
}.

Definition empty : t := {| users := []; orders := []; next_id := 1%N |}.

(** [User.findOne({ mobile })]: the first document with that mobile. *)
Definition findOne (mobile : string) (us : list User.t) : option User.t :=
  find (fun u => String.eqb (User.mobile u) mobile) us.

(** The update half of [User.findOneAndUpdate({ mobile }, { otp,
    otpExpiry })]: the first document with that mobile gets the new
    code and expiry; [None] when no document matches. *)
Fixpoint updateOne (mobile otp : string) (expiry : Z) (us : list User.t)
  : option (list User.t * User.t) :=
  match us with
  | [] => None
  | u :: rest =>
      if String.eqb (User.mobile u) mobile then
        let u' := {| User._id := User._id u; User.mobile := User.mobile u;
                     User.otp := Some otp; User.otpExpiry := Some expiry |} in
        Some (u' :: rest, u')
      else
        match updateOne mobile otp expiry rest with
        | Some (rest', u') => Some (u :: rest', u')
        | None => None
        end
  end.

(** [User.findOneAndUpdate(filter, update, { upsert: true, new: true })]:
    with no match a document is inserted under a fresh identifier; the
    document as it is after the update is returned. *)
Definition findOneAndUpdate (db : t) (mobile otp : string) (expiry : Z)
  : t * User.t :=
  match updateOne mobile otp expiry (users db) with
  | Some (us', u') =>
      ({| users := us'; orders := orders db; next_id := next_id db |}, u')
  | None =>
      let u' := {| User._id := next_id db; User.mobile := mobile;
                   User.otp := Some otp; User.otpExpiry := Some expiry |} in
      ({| users := users db ++ [u']; orders := orders db;
          next_id := N.succ (next_id db) |}, u')
  end.

(** The order routes and the admin routes do not call the functions of the
    Order model on the model: they take [create], [find] and
    [findByIdAndUpdate] off it with a named import
    ([import { create, find } from '../models/order']) and call them as
    plain functions. A static function of a mongoose model works on the
    model it is called on; called with no receiver it throws before it
    reads an argument or reaches the database. The three definitions are
    these calls; their result types are those of the calls on the model. *)
Definition create (db : t) (customer category weight date time : JS.value)
    (photos : list string) : JS.error + (t * Order.stored Number) :=
  inl (JS.DetachedCall "create").

(** [find(conditions)] with what is chained on it ([.sort], [.populate]);
    [conditions] is the customer asked for, if any. *)
Definition find {A : Type} (db : t) (conditions : option string)
  : JS.error + list A :=
  inl (JS.DetachedCall "find").

Definition findByIdAndUpdate (db : t) (id : string) (status : JS.value)
  : JS.error + (t * option (Order.stored Number)) :=
  inl (JS.DetachedCall "findByIdAndUpdate").

End Collections.

Arguments mk {Number}.
Arguments users {Number}.
Arguments orders {Number}.
Arguments next_id {Number}.
Arguments empty {Number}.
Arguments findOneAndUpdate {Number}.
Arguments create {Number}.
Arguments find {Number A}.
Arguments findByIdAndUpdate {Number}.

End Db.

(** ** The auth routes *)

Module Auth.

Inductive body : Type :=
| OtpSent (message otp : string)
| Verified (success : bool) (userId : ObjectId)
| Failed (error : string).

(** The options literal of the call in the send-otp handler:
    [{ upperCaseAlphabets: false, specialChars: false }]. *)
Definition otp_options : OtpGenerator.options :=
  {| OtpGenerator.opt_digits := None;
     OtpGenerator.opt_lowerCaseAlphabets := None;
     OtpGenerator.opt_upperCaseAlphabets := Some false;
     OtpGenerator.opt_specialChars := Some false |}.

Section Handlers.

Context {Number : Type}.

(** POST /send-otp. [now] is the reading of [Date.now()]. *)
Definition sendCode (db : Db.t Number) (mobile : string) (now : Z)
    (rnd : nat -> nat) : Db.t Number * outcome body :=
  match OtpGenerator.generate 4 otp_options rnd with
  | None => (db, Rejected JS.RangeError)
  | Some otp =>
      let expiry := (now + 5 * 60 * 1000)%Z in
      let '(db', _) := Db.findOneAndUpdate db mobile otp expiry in
      (db', Responded 200 (OtpSent "OTP sent" otp))
  end.

(** [user.otpExpiry > Date.now()]; an unset expiry compares false. *)
Definition not_expired (u : User.t) (now : Z) : bool :=
  match User.otpExpiry u with
  | Some e => (now <? e)%Z
  | None => false
  end.

(** POST /verify-otp. The database is only read. *)
Definition verifyCode (db : Db.t Number) (mobile : string) (otp : JS.field)
    (now : Z) : outcome body :=
  match Db.findOne mobile (Db.users db) with
  | Some user =>
      if JS.strict_eq (User.otp user) otp && not_expired user now then
        Responded 200 (Verified true (User._id user))
      else Responded 400 (Failed "Invalid or expired OTP")
  | None => Responded 400 (Failed "Invalid or expired OTP")
  end.

End Handlers.

End Auth.

(** ** The order routes: routes/order.js *)

Module Orders.

(** What multer leaves in [req.files] for one uploaded photo; [path] is
    where the disk storage wrote it. *)
Record file : Type := {
  originalname : string;
  filename : string;
  path : string
}.

(** The five fields the handler takes from [req.body]. *)
Record form : Type := {
  userId : JS.value;
  category : JS.value;
  weight : JS.value;
  date : JS.value;
  time : JS.value
}.

Inductive body (Number : Type) : Type :=
| Created (success : bool) (order : Order.stored Number)
| History (orders : list (Order.stored Number))
| Failed (error : string).
Arguments Created {Number}.
Arguments History {Number}.
Arguments Failed {Number}.

(** [upload.array('photos', maxCount)]. The files of a request are [None]
    when the request is not multipart: multer then passes it on untouched
    and [req.files] stays undefined. A multipart request gets the array of
    its photos, empty when it has none; more photos than [maxCount] fail
    the request before the handler runs. *)
Definition upload_array (maxCount : nat) (files : option (list file))
  : JS.error + option (list file) :=
  match files with
  | None => inr None
  | Some photos =>
      if (maxCount <? List.length photos)%nat
      then inl (JS.MulterError "LIMIT_UNEXPECTED_FILE")
      else inr (Some photos)
  end.

Section Handlers.

Context {Number : Type}.

(** [!userId || !category || !weight || !date || !time] *)
Definition missing (f : form) : bool :=
  JS.not_value (userId f) || JS.not_value (category f)
  || JS.not_value (weight f) || JS.not_value (date f)
  || JS.not_value (time f).

(** The handler of POST /new, on what multer left in [req.files]. The
    guard reads [req.files.length] only when the five fields are truthy,
    and reading it off an undefined [req.files] throws. *)
Definition new_order (db : Db.t Number) (f : form)
    (files : option (list file)) : Db.t Number * outcome (body Number) :=
  if missing f then (db, Responded 400 (Failed "All fields required"))
  else
    match files with
    | None => (db, Rejected JS.TypeError)
    | Some uploaded =>
        if Nat.eqb (List.length uploaded) 0
        then (db, Responded 400 (Failed "All fields required"))
        else
          let photos := map path uploaded in
          match Db.create db (userId f) (category f) (weight f) (date f)
                  (time f) photos with
          | inl e => (db, Rejected e)
          | inr (db', order) => (db', Responded 200 (Created true order))
          end
    end.

(** POST /new: the upload middleware, then the handler. *)
Definition createOrder (db : Db.t Number) (f : form)
    (files : option (list file)) : Db.t Number * outcome (body Number) :=
  match upload_array 5 files with
  | inl e => (db, Rejected e)
  | inr files' => new_order db f files'
  end.

(** GET /my-orders/:userId: [find({ customer: userId }).sort('-_id')]. *)
Definition listOrders (db : Db.t Number) (userId : string)
  : outcome (body Number) :=
  match Db.find db (Some userId) with
  | inl e => Rejected e
  | inr orders => Responded 200 (History orders)
  end.

End Handlers.

End Orders.

(** ** The admin routes: routes/admin.js

    The two handlers, as they run once the router reaches them. They are
    registered under the paths './orders' and './order/:orderId/status'. *)

Module Admin.

(** The [customer] path of a listed order, after
    [populate('customer', 'mobile')]: the user's identifier and mobile. *)
Record customerDoc : Type := {
  _id : ObjectId;
  mobile : string
}.

(** That path may be unset, [null] (no such user) or the document. *)
Inductive populated : Type :=
| Unset
| Null
| Doc (d : customerDoc).

Inductive body (Number : Type) : Type :=
| AllOrders (orders : list (Order.t Number populated))
| Updated (success : bool) (order : option (Order.stored Number)).
Arguments AllOrders {Number}.
Arguments Updated {Number}.

Section Handlers.

Context {Number : Type}.

(** GET ./orders: [find().populate('customer', 'mobile')]. *)
Definition listAllOrders (db : Db.t Number) : outcome (body Number) :=
  match Db.find db None with
  | inl e => Rejected e
  | inr orders => Responded 200 (AllOrders orders)
  end.

(** POST ./order/:orderId/status, with the [status] of the body. *)
Definition setOrderStatus (db : Db.t Number) (orderId : string)
    (status : JS.value) : Db.t Number * outcome (body Number) :=
  match Db.findByIdAndUpdate db orderId status with
  | inl e => (db, Rejected e)
  | inr (db', order) => (db', Responded 200 (Updated true order))
  end.

End Handlers.

End Admin.

(** ** scrbbbb/app.js: the upload demo *)

Module Demo.

(** A JSON value, as [JSON.parse] yields it. *)
#[warnings="-register-all"]
Inductive json : Type :=
| JNull
| JBool (b : bool)
| JNum (n : Z)
| JStr (s : string)
| JArr (items : list json)
| JObj (members : list (string * json)).

(** The file system as the app uses it: the content of uploads/data.json,
    [None] while the file does not exist. The uploads directory itself is
    created when the app starts. *)
Definition fs := option string.

(** What multer leaves in [req.file]. *)
Record file : Type := {
  filename : string;
  originalname : string;
  mimetype : string;
  size : Z
}.

(** The text fields of the upload form. *)
Record form : Type := {
  name : JS.field;
  email : JS.field;
  description : JS.field
}.

(** What the handlers send: the texts are fixed, except for the rows of the
    admin page. *)
Inductive body : Type :=
| NoFileUploaded
| UploadSuccessful
| AdminDashboard (rows : string).

(** [v || ''] *)
Definition or_empty (v : JS.field) : string :=
  match v with
  | Some s => s
  | None => ""
  end.

Definition newline : string := String (ascii_of_nat 10) "".

(** [strings.join(sep)] *)
Fixpoint join (sep : string) (l : list string) : string :=
  match l with
  | [] => ""
  | [s] => s
  | s :: rest => s ++ sep ++ join sep rest
  end.

Definition is_empty (s : string) : bool :=
  match s with
  | EmptyString => true
  | String _ _ => false
  end.

Section App.

(** [JSON.parse] ([None] where it throws) and [JSON.stringify(_, null, 2)]. *)
Variable parse : string -> option json.
Variable stringify : json -> string.

(** The template of one row of the admin page; [None] where evaluating it
    throws (an item that is [null]). *)
Variable row : json -> option string.

Definition readData (disk : fs) : json :=
  match disk with
  | None => JArr []
  | Some raw =>
      match parse raw with
      | Some v => v
      | None => JArr []
      end
  end.

Definition writeData (arr : json) : fs := Some (stringify arr).

(** The metadata record of one upload; [now] and [iso] are the readings of
    [Date.now()] and [new Date().toISOString()]. *)
Definition newItem (f : form) (upload : file) (now : Z) (iso : string) : json :=
  JObj [("id", JNum now);
        ("name", JStr (or_empty (name f)));
        ("email", JStr (or_empty (email f)));
        ("description", JStr (or_empty (description f)));
        ("filename", JStr (filename upload));
        ("originalName", JStr (originalname upload));
        ("mimetype", JStr (mimetype upload));
        ("size", JNum (size upload));
        ("uploadedAt", JStr iso)].

(** [arr.unshift(item)]: only an array has the method. *)
Definition unshift (arr item : json) : JS.error + json :=
  match arr with
  | JArr items => inr (JArr (item :: items))
  | _ => inl JS.TypeError
  end.

(** POST /upload *)
Definition upload (disk : fs) (f : form) (reqfile : option file) (now : Z)
    (iso : string) : fs * outcome body :=
  match reqfile with
  | None => (disk, Responded 400 NoFileUploaded)
  | Some uploaded =>
      match unshift (readData disk) (newItem f uploaded now iso) with
      | inl e => (disk, Rejected e)
      | inr arr => (writeData arr, Responded 200 UploadSuccessful)
      end
  end.

(** [items.map(row)]: throws as soon as a row does. *)
Fixpoint rows_of (items : list json) : option (list string) :=
  match items with
  | [] => Some []
  | it :: rest =>
      match row it, rows_of rest with
      | Some r, Some rs => Some (r :: rs)
      | _, _ => None
      end
  end.

(** GET /admin, past the basic-auth check. Nothing is written. *)
Definition admin (disk : fs) : outcome body :=
  match readData disk with
  | JArr items =>
      match rows_of items with
      | Some rs =>
          let joined := join newline rs in
          Responded 200
            (AdminDashboard
               (if is_empty joined then "<p>No uploads yet.</p>" else joined))
      | None => Rejected JS.TypeError
      end
  | _ => Rejected JS.TypeError
  end.

End App.

End Demo.

(** ** app.js: the routes that could write to the database *)

Module Server.

Inductive request : Type :=
| SendOtp (mobile : string) (now : Z) (rnd : nat -> nat)
| NewOrder (f : Orders.form) (files : option (list Orders.file))
| SetStatus (orderId : string) (status : JS.value).

Section Routes.

Context {Number : Type}.

(** The database after one request. *)
Definition step (db : Db.t Number) (r : request) : Db.t Number :=
  match r with
  | SendOtp mobile now rnd => fst (Auth.sendCode db mobile now rnd)
  | NewOrder f files => fst (Orders.createOrder db f files)
  | SetStatus orderId status => fst (Admin.setOrderStatus db orderId status)
  end.

(** The database after a sequence of requests, served one after another. *)
Definition run (db : Db.t Number) (rs : list request) : Db.t Number :=
  fold_left step rs db.

(** What one request can do to the database: nothing, renew the code of a
    user, or insert a user. *)
Inductive effect (db : Db.t Number) : request -> Db.t Number -> Prop :=
| effect_nothing (r : request) : effect db r db
| effect_code_renewed (mobile : string) (now : Z) (rnd : nat -> nat)
    (code : string) (us' : list User.t) (u' : User.t) :
    Db.updateOne mobile code (now + 300000) (Db.users db) = Some (us', u') ->
    effect db (SendOtp mobile now rnd)
      {| Db.users := us'; Db.orders := Db.orders db;
         Db.next_id := Db.next_id db |}
| effect_user_inserted (mobile : string) (now : Z) (rnd : nat -> nat)
    (code : string) :
    Db.updateOne mobile code (now + 300000) (Db.users db) = None ->
    effect db (SendOtp mobile now rnd)
      {| Db.users :=
           Db.users db
           ++ [{| User._id := Db.next_id db; User.mobile := mobile;
                  User.otp := Some code;
                  User.otpExpiry := Some (now + 300000)%Z |}];
         Db.orders := Db.orders db;
         Db.next_id := N.succ (Db.next_id db) |}.

End Routes.

End Server.

(** ** The disk storages of the two upload forms *)

(** [Date.now() + '-' + name]: the clock reading is an integer, which
    JavaScript prints in decimal. *)
Definition decimal (n : Z) : string := NilZero.string_of_int (Z.to_int n).

(** routes/order.js: [filename] of the photo storage. *)
Module OrderStorage.

Definition filename (now : Z) (originalname : string) : string :=
  decimal now ++ "-" ++ originalname.

End OrderStorage.

(** scrbbbb/app.js: [filename] of the image storage. *)
Module DemoStorage.

(** The character class [[a-zA-Z0-9.\-]]. *)
Definition kept (c : ascii) : bool :=
  let n := nat_of_ascii c in
  ((97 <=? n) && (n <=? 122) || (65 <=? n) && (n <=? 90)
   || (48 <=? n) && (n <=? 57) || (n =? 46) || (n =? 45))%nat.

(** [name.replace(/[^a-zA-Z0-9.\-]/g, '_')] *)
Fixpoint sanitize (name : string) : string :=
  match name with
  | EmptyString => EmptyString
  | String c rest =>
      String (if kept c then c else "_"%char) (sanitize rest)
  end.

Definition filename (now : Z) (originalname : string) : string :=
  decimal now ++ "-" ++ sanitize originalname.

End DemoStorage.

(** ** scrbbbb/app.js: the html-escape helper *)

Module Html.

Definition dquote : ascii := "034"%char.

(** [s.replace(/c/g, by)], for a pattern that is one character. *)
Fixpoint replace (c : ascii) (by_ : string) (s : string) : string :=
  match s with
  | EmptyString => EmptyString
  | String a rest =>
      if Ascii.eqb a c then by_ ++ replace c by_ rest
      else String a (replace c by_ rest)
  end.

(** [escapeHtml(str)], on a value that is [undefined] or a string: a falsy
    value gives the empty string, else the five replacements run one after
    another, the ampersand first. *)
Definition escapeHtml (str : JS.field) : string :=
  match str with
  | None => ""
  | Some s =>
      if JS.not str then ""
      else
        replace "'" "&#39;"
          (replace dquote "&quot;"
             (replace ">" "&gt;"
                (replace "<" "&lt;"
                   (replace "&" "&amp;" s))))
  end.

End Html.

(** ** Data for running the handlers on examples *)

Module Sample.

(** The random source that yields the listed draws in turn. *)
Definition draws (l : list nat) : nat -> nat := fun i => nth i l 0%nat.

(** The running example: a customer registers with send-otp and gets the
    identifier 1; the hexadecimal form of that identifier is the userId of
    the order requests. *)
Definition alice_mobile : string := "9999999999".
Definition alice : string := "000000000000000000000001".

Definition registered : Db.t Z :=
  fst (Auth.sendCode Db.empty alice_mobile 1700000000000
         (draws [4; 10; 7; 35]%nat)).

(** A second customer registers a hundred seconds later and gets the code
    "1234". *)
Definition bob_mobile : string := "8888888888".

Definition two_users : Db.t Z :=
  fst (Auth.sendCode registered bob_mobile 1700000100000
         (draws [1; 2; 3; 4]%nat)).

Definition photo (name : string) : Orders.file :=
  {| Orders.originalname := name;
     Orders.filename := "1700000000000-" ++ name;
     Orders.path := "uploads/1700000000000-" ++ name |}.

Definition pickup (uid : JS.value) (day : string) : Orders.form :=
  {| Orders.userId := uid; Orders.category := JS.Str "Plastic";
     Orders.weight := JS.Str "3"; Orders.date := JS.Str day;
     Orders.time := JS.Str "10:00" |}.

(** An order document, for a database that holds orders from the start. *)
Definition order (id : ObjectId) (day : string) (photos : list string)
    (status : string) : Order.stored Z :=
  {| Order._id := id; Order.customer := Some 1%N;
     Order.category := Some "Plastic"; Order.weight := Some 3%Z;
     Order.photos := photos; Order.date := Some day;
     Order.time := Some "10:00"; Order.status := status |}.

Definition with_orders (os : list (Order.stored Z)) (next : ObjectId)
  : Db.t Z :=
  {| Db.users := Db.users registered; Db.orders := os; Db.next_id := next |}.

(** Stand-ins for [JSON.parse], [JSON.stringify] and the row template in
    the examples of the demo: the parser knows the empty array only. *)
Definition parse (raw : string) : option Demo.json :=
  if String.eqb raw "[]" then Some (Demo.JArr []) else None.

Definition stringify (v : Demo.json) : string :=
  match v with
  | Demo.JArr [] => "[]"
  | Demo.JArr (_ :: _) => "[...]"
  | _ => "null"
  end.

Definition row (it : Demo.json) : option string :=
  match it with
  | Demo.JNull => None
  | _ => Some "<div></div>"
  end.

Definition image : Demo.file :=
  {| Demo.filename := "1700000000000-a.jpg"; Demo.originalname := "a.jpg";
     Demo.mimetype := "image/jpeg"; Demo.size := 2048 |}.

Definition details : Demo.form :=
  {| Demo.name := Some "Alice"; Demo.email := None;
     Demo.description := Some "first" |}.

(** A second stand-in for [JSON.parse], which also knows an empty object,
    [null], and the text that [stringify] gives the array holding the one
    record of the example upload. *)
Definition first_record : Demo.json :=
  Demo.newItem details image 1700000000000%Z "2023-11-14T22:13:20.000Z".

Definition parse_more (raw : string) : option Demo.json :=
  if String.eqb raw "{}" then Some (Demo.JObj [])
  else if String.eqb raw "null" then Some Demo.JNull
  else if String.eqb raw "[...]" then Some (Demo.JArr [first_record])
  else parse raw.

(** A later upload by someone else, a metadata file that holds both
    records, newest first, and a row template that shows the name of the
    record. *)
Definition later_details : Demo.form :=
  {| Demo.name := Some "Bob"; Demo.email := Some "bob@example.com";
     Demo.description := None |}.

Definition second_record : Demo.json :=
  Demo.newItem later_details image 1700000500000%Z "2023-11-14T22:21:40.000Z".

Definition parse_pair (raw : string) : option Demo.json :=
  if String.eqb raw "[2]"
  then Some (Demo.JArr [second_record; first_record])
  else parse_more raw.

Definition row_name (it : Demo.json) : option string :=
  match it with
  | Demo.JNull => None
  | Demo.JObj (_ :: (_, Demo.JStr name) :: _) =>
      Some ("<div>" ++ name ++ "</div>")
  | _ => Some "<div></div>"
  end.

End Sample.

(** ** The words of the specification *)

Module Spec.

(** The characters the send-otp call draws from. *)
Definition otp_chars : list ascii :=
  list_ascii_of_string (OtpGenerator.allowsChars Auth.otp_options).

Definition digit_or_lower (c : ascii) : bool :=
  OtpGenerator.is_digit c || OtpGenerator.is_lower c.

(** "At most one record per mobile": the unique index that the user schema
    declares on [mobile]. *)
Definition unique_mobiles {Number : Type} (db : Db.t Number) : Prop :=
  NoDup (map User.mobile (Db.users db)).

(** "A User record for mobile exists, its stored code equals the supplied
    code, and its stored expiry is strictly in the future": [u] is such a
    record of the users collection. *)
Definition record_accepts {Number : Type} (db : Db.t Number) (mobile : string)
    (code : JS.field) (now : Z) (u : User.t) : Prop :=
  In u (Db.users db)
  /\ User.mobile u = mobile
  /\ User.otp u = code
  /\ exists expiry, User.otpExpiry u = Some expiry /\ (now < expiry)%Z.






(** "The metadata file is missing or contains unparsable JSON". *)
Definition unreadable (parse : string -> option Demo.json) (disk : Demo.fs)
  : Prop :=
  disk = None \/ exists raw, disk = Some raw /\ parse raw = None.

(** A request that issues no new code for [mobile]. *)
Definition keeps_code (mobile : string) (r : Server.request) : bool :=
  match r with
  | Server.SendOtp m _ _ => negb (String.eqb m mobile)
  | _ => true
  end.

(** Every character of a string passes a test. *)
Fixpoint every (p : ascii -> bool) (s : string) : bool :=
  match s with
  | EmptyString => true
  | String c rest => p c && every p rest
  end.

(** The characters with which text could open a tag or close an attribute
    value. *)
Definition markup (c : ascii) : bool :=
  Ascii.eqb c "<" || Ascii.eqb c ">" || Ascii.eqb c Html.dquote
  || Ascii.eqb c "'".

(** The entity that stands for one character of the text. *)
Definition entity (c : ascii) : string :=
  if Ascii.eqb c "&" then "&amp;"
  else if Ascii.eqb c "<" then "&lt;"
  else if Ascii.eqb c ">" then "&gt;"
  else if Ascii.eqb c Html.dquote then "&quot;"
  else if Ascii.eqb c "'" then "&#39;"
  else String c "".

(** The text with each character replaced by its entity, in one pass. *)
Fixpoint escape_each (s : string) : string :=
  match s with
  | EmptyString => EmptyString
  | String c rest => entity c ++ escape_each rest
  end.

(** A character that may appear in a stored file name of the demo. *)
Definition name_char (c : ascii) : bool :=
  DemoStorage.kept c || Ascii.eqb c "_".

(** A path separator. *)
Definition separator (c : ascii) : bool :=
  Ascii.eqb c "/" || Ascii.eqb c "092".

(** The five replacements in a row, as in the body of [escapeHtml]. *)
Definition chain (s : string) : string :=
  Html.replace "'" "&#39;"
    (Html.replace Html.dquote "&quot;"
       (Html.replace ">" "&gt;"
          (Html.replace "<" "&lt;" (Html.replace "&" "&amp;" s)))).

(** A character of a printed integer. *)
Definition numeral_char (c : ascii) : bool :=
  OtpGenerator.is_digit c || Ascii.eqb c "-".

(** A user without its code: the part no route assigns after the record is
    created. *)
Definition identity (u : User.t) : ObjectId * string :=
  (User._id u, User.mobile u).

(** A user record that holds a code. *)
Definition has_code (u : User.t) : bool :=
  match User.otp u with
  | Some _ => true
  | None => false
  end.

End Spec.

(** * Properties *)

(** ** JavaScript tests *)

Lemma strict_eq_spec (a b : JS.field) : JS.strict_eq a b = true <-> a = b.
Proof.
  destruct a as [x|], b as [y|]; simpl; try (split; congruence).
  rewrite String.eqb_eq. split; congruence.
Qed.

Lemma truthy_spec (v : JS.field) :
  JS.truthy v = false <-> v = None \/ v = Some "".
Proof.
  destruct v as [[|c s]|]; simpl; split; intros H; auto;
    try discriminate; destruct H as [H|H]; discriminate.
Qed.

(** ** The generated code *)

Section Generator.

Import OtpGenerator Spec.

Lemma otp_chars_eq :
  otp_chars = list_ascii_of_string (digits ++ lowerCaseAlphabets).
Proof. reflexivity. Qed.

Lemma otp_chars_classes : forallb digit_or_lower otp_chars = true.
Proof. reflexivity. Qed.

Lemma charAt_otp_chars (k : nat) : digit_or_lower (charAt otp_chars k) = true.
Proof.
  unfold charAt.
  pose proof otp_chars_classes as Hall.
  rewrite forallb_forall in Hall. apply Hall.
  apply nth_In. apply Nat.mod_upper_bound. discriminate.
Qed.

Lemma generate_otp (rnd : nat -> nat) :
  generate 4 Auth.otp_options rnd
  = Some (string_of_list_ascii
            (map (fun i => charAt otp_chars (rnd i)) [0; 1; 2; 3]%nat)).
Proof. reflexivity. Qed.

Lemma generate_otp_shape (rnd : nat -> nat) :
  exists code,
    generate 4 Auth.otp_options rnd = Some code
    /\ String.length code = 4%nat
    /\ forallb digit_or_lower (list_ascii_of_string code) = true.
Proof.
  eexists. split; [apply generate_otp|]. split; [reflexivity|].
  rewrite list_ascii_of_string_of_list_ascii. simpl.
  rewrite !charAt_otp_chars. reflexivity.
Qed.

End Generator.

(** ** The users collection *)

Section Users.

Lemma updateOne_hit (mobile code : string) (expiry : Z) (us us' : list User.t)
    (u' : User.t) :
  Db.updateOne mobile code expiry us = Some (us', u') ->
  Db.findOne mobile us' = Some u'
  /\ User.mobile u' = mobile
  /\ User.otp u' = Some code
  /\ User.otpExpiry u' = Some expiry
  /\ exists u, Db.findOne mobile us = Some u /\ User._id u' = User._id u.
Proof.
  revert us'. induction us as [|u rest IH]; simpl; intros us' H; [discriminate|].
  destruct (String.eqb (User.mobile u) mobile) eqn:E.
  - inversion H; subst; clear H. simpl. rewrite E.
    apply String.eqb_eq in E. repeat split; auto. now exists u.
  - destruct (Db.updateOne mobile code expiry rest) as [[rest' v]|] eqn:R;
      [|discriminate].
    inversion H; subst; clear H. simpl. rewrite E.
    destruct (IH rest' eq_refl) as (H1 & H2 & H3 & H4 & H5). auto.
Qed.

Lemma updateOne_miss (mobile code : string) (expiry : Z) (us : list User.t) :
  Db.updateOne mobile code expiry us = None -> Db.findOne mobile us = None.
Proof.
  induction us as [|u rest IH]; simpl; intros H; [reflexivity|].
  destruct (String.eqb (User.mobile u) mobile); [discriminate|].
  destruct (Db.updateOne mobile code expiry rest) as [[rest' v]|];
    [discriminate|auto].
Qed.

Lemma findOne_app_miss (mobile : string) (us : list User.t) (u : User.t) :
  Db.findOne mobile us = None -> User.mobile u = mobile ->
  Db.findOne mobile (us ++ [u]) = Some u.
Proof.
  unfold Db.findOne. intros Hnone Hm.
  induction us as [|v rest IH]; simpl in *.
  - rewrite Hm, String.eqb_refl. reflexivity.
  - destruct (String.eqb (User.mobile v) mobile); [discriminate|auto].
Qed.

(** After the upsert, the lookup by mobile finds the returned document,
    which carries the new code and expiry. *)
Lemma findOneAndUpdate_stored {Number : Type} (db db' : Db.t Number)
    (mobile code : string) (expiry : Z) (u' : User.t) :
  Db.findOneAndUpdate db mobile code expiry = (db', u') ->
  Db.findOne mobile (Db.users db') = Some u'
  /\ User.otp u' = Some code
  /\ User.otpExpiry u' = Some expiry
  /\ Db.orders db' = Db.orders db.
Proof.
  unfold Db.findOneAndUpdate.
  destruct (Db.updateOne mobile code expiry (Db.users db)) as [[us' v]|] eqn:U;
    intros H; inversion H; subst; clear H; simpl.
  - destruct (updateOne_hit _ _ _ _ _ _ U) as (H1 & _ & H3 & H4 & _). auto.
  - repeat split; auto.
    apply findOne_app_miss; [now apply updateOne_miss in U|reflexivity].
Qed.

Lemma updateOne_ids (mobile code : string) (expiry : Z) (us us' : list User.t)
    (u' : User.t) :
  Db.updateOne mobile code expiry us = Some (us', u') ->
  map User._id us' = map User._id us.
Proof.
  revert us'. induction us as [|u rest IH]; simpl; intros us' H; [discriminate|].
  destruct (String.eqb (User.mobile u) mobile).
  - inversion H; subst. reflexivity.
  - destruct (Db.updateOne mobile code expiry rest) as [[rest' v]|];
      [|discriminate].
    inversion H; subst. simpl. f_equal. now apply IH.
Qed.

Lemma updateOne_mobiles (mobile code : string) (expiry : Z)
    (us us' : list User.t) (u' : User.t) :
  Db.updateOne mobile code expiry us = Some (us', u') ->
  map User.mobile us' = map User.mobile us.
Proof.
  revert us'. induction us as [|u rest IH]; simpl; intros us' H; [discriminate|].
  destruct (String.eqb (User.mobile u) mobile).
  - inversion H; subst. reflexivity.
  - destruct (Db.updateOne mobile code expiry rest) as [[rest' v]|];
      [|discriminate].
    inversion H; subst. simpl. f_equal. now apply IH.
Qed.

(** Updating the record of one mobile leaves the lookup of another as it
    was. *)
Lemma updateOne_other (mobile other code : string) (expiry : Z)
    (us us' : list User.t) (u' : User.t) :
  other <> mobile ->
  Db.updateOne mobile code expiry us = Some (us', u') ->
  Db.findOne other us' = Db.findOne other us.
Proof.
  intros Hne. revert us' u'. unfold Db.findOne.
  induction us as [|u rest IH]; simpl; intros us' u' H; [discriminate|].
  destruct (String.eqb (User.mobile u) mobile) eqn:E.
  - inversion H; subst; clear H. simpl. apply String.eqb_eq in E.
    rewrite E. apply not_eq_sym, String.eqb_neq in Hne. rewrite Hne.
    reflexivity.
  - destruct (Db.updateOne mobile code expiry rest) as [[rest' v]|] eqn:R;
      [|discriminate].
    inversion H; subst; clear H. simpl.
    rewrite (IH rest' u' eq_refl). reflexivity.
Qed.

Lemma findOne_app_hit (mobile : string) (us more : list User.t) (u : User.t) :
  Db.findOne mobile us = Some u -> Db.findOne mobile (us ++ more) = Some u.
Proof.
  unfold Db.findOne. induction us as [|v rest IH]; simpl; [discriminate|].
  destruct (String.eqb (User.mobile v) mobile); auto.
Qed.

Lemma findOne_None (mobile : string) (us : list User.t) :
  Db.findOne mobile us = None -> ~ In mobile (map User.mobile us).
Proof.
  unfold Db.findOne. intros H Hin. apply in_map_iff in Hin.
  destruct Hin as (u & Hm & Hu).
  apply (find_none _ _ H) in Hu. rewrite Hm, String.eqb_refl in Hu.
  discriminate.
Qed.

(** With one record per mobile, the record [findOne] returns is the record
    of that mobile. *)
Lemma findOne_unique (mobile : string) (us : list User.t) (u : User.t) :
  NoDup (map User.mobile us) ->
  (Db.findOne mobile us = Some u <-> In u us /\ User.mobile u = mobile).
Proof.
  unfold Db.findOne. intros Hnd. split.
  - intros H. apply find_some in H. destruct H as [Hin E].
    apply String.eqb_eq in E. auto.
  - intros [Hin Hm]. induction us as [|v rest IH]; simpl in *; [contradiction|].
    inversion Hnd as [|? ? Hnotin Hrest]; subst.
    destruct Hin as [->|Hin].
    + rewrite String.eqb_refl. reflexivity.
    + destruct (String.eqb (User.mobile v) (User.mobile u)) eqn:E; [|auto].
      apply String.eqb_eq in E. exfalso. apply Hnotin. rewrite E.
      now apply in_map.
Qed.

End Users.

(** ** The auth workflow *)

Section AuthWorkflow.

Context {Number : Type}.
Implicit Types (db : Db.t Number) (mobile : string) (now : Z).

Lemma sendCode_unfold db mobile now (rnd : nat -> nat) (code : string) :
  OtpGenerator.generate 4 Auth.otp_options rnd = Some code ->
  Auth.sendCode db mobile now rnd
  = (fst (Db.findOneAndUpdate db mobile code (now + 300000)),
     Responded 200 (Auth.OtpSent "OTP sent" code)).
Proof.
  intros G. unfold Auth.sendCode. rewrite G.
  change (now + 5 * 60 * 1000)%Z with (now + 300000)%Z.
  destruct (Db.findOneAndUpdate db mobile code (now + 300000)); reflexivity.
Qed.

Lemma sendCode_stores_code db mobile now (rnd : nat -> nat) :
  exists code user,
    snd (Auth.sendCode db mobile now rnd)
    = Responded 200 (Auth.OtpSent "OTP sent" code)
    /\ Db.findOne mobile (Db.users (fst (Auth.sendCode db mobile now rnd)))
       = Some user
    /\ User.otp user = Some code
    /\ User.otpExpiry user = Some (now + 300000)%Z.
Proof.
  destruct (generate_otp_shape rnd) as (code & G & _ & _).
  destruct (Db.findOneAndUpdate db mobile code (now + 300000))
    as [db' u'] eqn:U.
  exists code, u'. rewrite (sendCode_unfold _ _ _ _ _ G), U. simpl.
  destruct (findOneAndUpdate_stored _ _ _ _ _ _ U) as (H1 & H2 & H3 & _).
  repeat split; assumption.
Qed.

(** What sendCode does for every mobile number: it generates a code of
    four characters, each a decimal digit or a lowercase letter, answers
    200 with that code in the body, and the user record found by the
    mobile afterwards holds the same code, expiring five minutes after the
    call. *)
Theorem sendCode_returns_generated_code db mobile now (rnd : nat -> nat) :
  exists code user,
    OtpGenerator.generate 4 Auth.otp_options rnd = Some code
    /\ snd (Auth.sendCode db mobile now rnd)
       = Responded 200 (Auth.OtpSent "OTP sent" code)
    /\ String.length code = 4%nat
    /\ forallb Spec.digit_or_lower (list_ascii_of_string code) = true
    /\ Db.findOne mobile (Db.users (fst (Auth.sendCode db mobile now rnd)))
       = Some user
    /\ User.otp user = Some code
    /\ User.otpExpiry user = Some (now + 300000)%Z.
Proof.
  destruct (generate_otp_shape rnd) as (code & G & Hlen & Hchars).
  destruct (Db.findOneAndUpdate db mobile code (now + 300000))
    as [db' u'] eqn:U.
  exists code, u'. rewrite (sendCode_unfold _ _ _ _ _ G), U. simpl.
  destruct (findOneAndUpdate_stored _ _ _ _ _ _ U) as (H1 & H2 & H3 & _).
  repeat split; assumption.
Qed.

(** C2: with one record per mobile, as the unique index on the mobile has
    it, verifyCode answers 200 with the identifier of a user exactly when
    the users collection holds a record with the given mobile whose stored
    code equals the supplied code and whose expiry is strictly after now,
    the identifier being that record's; in every other case (no record
    with the mobile, another code, an expiry not after now) it answers 400
    with the one error 'Invalid or expired OTP'. *)
Theorem verifyCode_accepts_exactly db mobile (code : JS.field) now :
  Spec.unique_mobiles db ->
  let r := Auth.verifyCode db mobile code now in
  (exists u, Spec.record_accepts db mobile code now u
             /\ r = Responded 200 (Auth.Verified true (User._id u)))
  \/ (~ (exists u, Spec.record_accepts db mobile code now u)
      /\ r = Responded 400 (Auth.Failed "Invalid or expired OTP")).
Proof.
  intros Hunique. unfold Spec.unique_mobiles in Hunique.
  unfold Auth.verifyCode, Spec.record_accepts, Auth.not_expired. simpl.
  destruct (Db.findOne mobile (Db.users db)) as [user|] eqn:F.
  - assert (Hsame : forall u, In u (Db.users db) -> User.mobile u = mobile ->
                              u = user).
    { intros u Hin Hm.
      assert (Fu : Db.findOne mobile (Db.users db) = Some u)
        by (apply findOne_unique; auto).
      congruence. }
    apply (findOne_unique _ _ _ Hunique) in F. destruct F as [Hin Hm].
    destruct (JS.strict_eq (User.otp user) code) eqn:E; simpl.
    + apply strict_eq_spec in E.
      destruct (User.otpExpiry user) as [e|] eqn:X.
      * destruct (now <? e)%Z eqn:L.
        -- left. exists user. apply Z.ltb_lt in L.
           repeat split; auto. now exists e.
        -- right. split; [|reflexivity].
           intros (u & Hu & Hmu & _ & e' & He & Hlt).
           rewrite (Hsame u Hu Hmu) in He. rewrite X in He.
           inversion He; subst e'. apply Z.ltb_ge in L. lia.
      * right. split; [|reflexivity].
        intros (u & Hu & Hmu & _ & e' & He & _).
        rewrite (Hsame u Hu Hmu) in He. congruence.
    + right. split; [|reflexivity].
      intros (u & Hu & Hmu & Hc & _). rewrite (Hsame u Hu Hmu) in Hc.
      apply strict_eq_spec in Hc. congruence.
  - right. split; [|reflexivity].
    intros (u & Hu & Hmu & _).
    assert (Fu : Db.findOne mobile (Db.users db) = Some u)
      by (apply findOne_unique; auto).
    congruence.
Qed.

(** C3: the code that sendCode returns for a mobile, presented with that
    mobile less than five minutes after the call, is accepted, and the
    answer carries the identifier of the user record stored for the
    mobile. *)
Theorem sendCode_verifyCode_roundtrip db mobile now (rnd : nat -> nat)
    (later : Z) :
  (later < now + 5 * 60 * 1000)%Z ->
  exists code user,
    snd (Auth.sendCode db mobile now rnd)
    = Responded 200 (Auth.OtpSent "OTP sent" code)
    /\ Db.findOne mobile (Db.users (fst (Auth.sendCode db mobile now rnd)))
       = Some user
    /\ Auth.verifyCode (fst (Auth.sendCode db mobile now rnd)) mobile
         (Some code) later
       = Responded 200 (Auth.Verified true (User._id user)).
Proof.
  intros Hlater.
  destruct (sendCode_stores_code db mobile now rnd)
    as (code & user & Hr & Hf & Ho & He).
  exists code, user. repeat split; auto.
  unfold Auth.verifyCode, Auth.not_expired. rewrite Hf, Ho, He. simpl.
  rewrite String.eqb_refl. simpl.
  replace (later <? now + 300000)%Z with true; [reflexivity|].
  symmetry. apply Z.ltb_lt. lia.
Qed.

End AuthWorkflow.

(** C1 at a failing input: the call leaves lowercase letters enabled, so
    with the draws 4, 10, 7, 35 the generator picks the characters 4, a, 7,
    z, and the answer to send-otp for "9999999999" carries the code "4a7z",
    which is not a 4-digit numeric code. *)
Theorem sendCode_code_not_numeric :
  let r :=
    snd (Auth.sendCode (Db.empty (Number := Z)) "9999999999" 1700000000000
           (Sample.draws [4; 10; 7; 35]%nat)) in
  r = Responded 200 (Auth.OtpSent "OTP sent" "4a7z")
  /\ ~ (exists code,
          r = Responded 200 (Auth.OtpSent "OTP sent" code)
          /\ OtpGenerator.numeric4 code = true).
Proof.
  split; [reflexivity|].
  intros (code & Hr & Hn). vm_compute in Hr.
  inversion Hr; subst code. discriminate Hn.
Qed.

Lemma sendCode_verifyCode_roundtrip_witness :
  (1700000299999 < 1700000000000 + 5 * 60 * 1000)%Z
  /\ exists code user,
       snd (Auth.sendCode (Db.empty (Number := Z)) "9999999999" 1700000000000
              (Sample.draws [4; 10; 7; 35]%nat))
       = Responded 200 (Auth.OtpSent "OTP sent" code)
       /\ Db.findOne "9999999999"
            (Db.users
               (fst (Auth.sendCode (Db.empty (Number := Z)) "9999999999"
                       1700000000000 (Sample.draws [4; 10; 7; 35]%nat))))
          = Some user
       /\ Auth.verifyCode
            (fst (Auth.sendCode (Db.empty (Number := Z)) "9999999999"
                    1700000000000 (Sample.draws [4; 10; 7; 35]%nat)))
            "9999999999" (Some code) 1700000299999
          = Responded 200 (Auth.Verified true (User._id user)).
Proof.
  split; [lia|].
  apply (sendCode_verifyCode_roundtrip (Db.empty (Number := Z)) "9999999999"
           1700000000000 (Sample.draws [4; 10; 7; 35]%nat) 1700000299999).
  lia.
Defined.

Lemma verifyCode_accepts_exactly_witness :
  let db := Sample.two_users in
  let r :=
    Auth.verifyCode db Sample.bob_mobile (Some "1234") 1700000200000 in
  Spec.unique_mobiles db
  /\ ((exists u,
         Spec.record_accepts db Sample.bob_mobile (Some "1234") 1700000200000 u
         /\ r = Responded 200 (Auth.Verified true (User._id u)))
      \/ (~ (exists u,
               Spec.record_accepts db Sample.bob_mobile (Some "1234")
                 1700000200000 u)
          /\ r = Responded 400 (Auth.Failed "Invalid or expired OTP"))).
Proof.
  assert (H : Spec.unique_mobiles Sample.two_users).
  { unfold Spec.unique_mobiles. vm_compute.
    constructor; [intros [E|[]]; discriminate E|].
    constructor; [intros []|constructor]. }
  split; [exact H|].
  apply (verifyCode_accepts_exactly Sample.two_users Sample.bob_mobile
           (Some "1234") 1700000200000 H).
Defined.

(** With the two users of the example: each mobile is verified by its own
    code and by no other, the first user's code included. *)
Example verifyCode_two_users :
  let refused := Responded 400 (Auth.Failed "Invalid or expired OTP") in
  Auth.verifyCode Sample.two_users Sample.bob_mobile (Some "1234")
    1700000200000
  = Responded 200 (Auth.Verified true 2%N)
  /\ Auth.verifyCode Sample.two_users Sample.bob_mobile (Some "4a7z")
       1700000200000
     = refused
  /\ Auth.verifyCode Sample.two_users Sample.alice_mobile (Some "4a7z")
       1700000200000
     = Responded 200 (Auth.Verified true 1%N)
  /\ Auth.verifyCode Sample.two_users Sample.alice_mobile (Some "1234")
       1700000200000
     = refused.
Proof. repeat split. Qed.

(** On the running example, whose user holds the code "4a7z" until
    1700000300000: the right code in time is accepted; a wrong code, a
    missing code, an unknown mobile, and the right code at the very instant
    of expiry all get the same answer. *)
Example verifyCode_examples :
  let db := Sample.registered in
  let refused := Responded 400 (Auth.Failed "Invalid or expired OTP") in
  Auth.verifyCode db "9999999999" (Some "4a7z") 1700000299999
  = Responded 200 (Auth.Verified true 1%N)
  /\ Auth.verifyCode db "9999999999" (Some "1234") 1700000299999 = refused
  /\ Auth.verifyCode db "9999999999" None 1700000299999 = refused
  /\ Auth.verifyCode db "8888888888" (Some "4a7z") 1700000299999 = refused
  /\ Auth.verifyCode db "9999999999" (Some "4a7z") 1700000300000 = refused.
Proof. repeat split. Qed.

(** ** The order workflow *)

Section OrderWorkflow.

Context {Number : Type}.

Abbreviation createOrder := (@Orders.createOrder Number).
Abbreviation invalid :=
  (Responded 400 (@Orders.Failed Number "All fields required")).




(** No request to POST /new changes the database. *)
Lemma createOrder_db (db : Db.t Number) (f : Orders.form)
    (files : option (list Orders.file)) :
  fst (createOrder db f files) = db.
Proof.
  unfold Orders.createOrder, Orders.upload_array, Orders.new_order.
  destruct files as [photos|].
  - destruct (5 <? List.length photos)%nat; [reflexivity|].
    destruct (Orders.missing f); [reflexivity|].
    destruct (Nat.eqb (List.length photos) 0); reflexivity.
  - destruct (Orders.missing f); reflexivity.
Qed.


End OrderWorkflow.


(** C5 at a failing input. A multipart request with the five fields and
    one photo passes the guard; the handler then calls [create] off the
    model, the call throws, no order is stored and no answer is written.
    More generally no request to POST /new is answered with a created
    order, and none changes the database: the answer is the 400 of the
    guard or one of three failures. *)
Theorem createOrder_stores_nothing :
  Orders.createOrder Sample.registered
    (Sample.pickup (JS.Str Sample.alice) "2024-01-01")
    (Some [Sample.photo "a.jpg"])
  = (Sample.registered, Rejected (JS.DetachedCall "create"))
  /\ forall (Number : Type) (db : Db.t Number) (f : Orders.form)
       (files : option (list Orders.file)),
       fst (Orders.createOrder db f files) = db
       /\ (snd (Orders.createOrder db f files)
           = Responded 400 (Orders.Failed "All fields required")
           \/ snd (Orders.createOrder db f files)
              = Rejected (JS.MulterError "LIMIT_UNEXPECTED_FILE")
           \/ snd (Orders.createOrder db f files) = Rejected JS.TypeError
           \/ snd (Orders.createOrder db f files)
              = Rejected (JS.DetachedCall "create")).
Proof.
  split; [reflexivity|].
  intros Number db f files. split; [apply createOrder_db|].
  unfold Orders.createOrder, Orders.upload_array, Orders.new_order.
  destruct files as [photos|].
  - destruct (5 <? List.length photos)%nat; [now right; left|].
    destruct (Orders.missing f); [now left|].
    destruct (Nat.eqb (List.length photos) 0); [now left|].
    now right; right; right.
  - destruct (Orders.missing f); [now left|now right; right; left].
Qed.

(** C6 at a failing input. On a database that holds two orders of the
    customer, the history route calls [find] off the model: the call
    throws and no listing is answered. The same holds for every database
    and every userId. *)
Theorem listOrders_rejects :
  Orders.listOrders
    (Sample.with_orders
       [Sample.order 2%N "2024-01-01" ["uploads/1700000000000-a.jpg"]
          "Pending";
        Sample.order 3%N "2024-02-02" ["uploads/1700000000000-b.jpg"]
          "Pending"] 4%N)
    Sample.alice
  = Rejected (JS.DetachedCall "find")
  /\ forall (Number : Type) (db : Db.t Number) (userId : string),
       Orders.listOrders db userId = Rejected (JS.DetachedCall "find").
Proof. split; reflexivity. Qed.

(** ** The admin workflow *)

(** C8 at a failing input. On a database that holds the order 2 with
    status Pending, the status handler, asked to set it to Scheduled, calls
    [findByIdAndUpdate] off the model: the call throws, the order keeps its
    status and no record is answered. The same holds for every database,
    identifier and status. *)
Theorem setOrderStatus_rejects :
  let db :=
    Sample.with_orders
      [Sample.order 2%N "2024-01-01" ["uploads/1700000000000-a.jpg"]
         "Pending"] 3%N in
  Admin.setOrderStatus db "000000000000000000000002" (JS.Str "Scheduled")
  = (db, Rejected (JS.DetachedCall "findByIdAndUpdate"))
  /\ map Order.status
       (Db.orders
          (fst (Admin.setOrderStatus db "000000000000000000000002"
                  (JS.Str "Scheduled"))))
     = ["Pending"]
  /\ forall (Number : Type) (db : Db.t Number) (orderId : string)
       (status : JS.value),
       Admin.setOrderStatus db orderId status
       = (db, Rejected (JS.DetachedCall "findByIdAndUpdate")).
Proof. repeat split. Qed.

(** C9 at a failing input. On a database that holds an order of the
    registered customer, the listing handler calls [find] off the model:
    the call throws and no listing is answered, before or after a status
    request. The same holds for every database. *)
Theorem listAllOrders_rejects :
  let db :=
    Sample.with_orders
      [Sample.order 2%N "2024-01-01" ["uploads/1700000000000-a.jpg"]
         "Pending"] 3%N in
  Admin.listAllOrders db = Rejected (JS.DetachedCall "find")
  /\ Admin.listAllOrders
       (fst (Admin.setOrderStatus db "000000000000000000000002"
               (JS.Str "Scheduled")))
     = Rejected (JS.DetachedCall "find")
  /\ forall (Number : Type) (db : Db.t Number),
       Admin.listAllOrders db = Rejected (JS.DetachedCall "find").
Proof. repeat split. Qed.

(** ** Invariants of the database *)

Section Invariants.

Context {Number : Type}.

Abbreviation step := (@Server.step Number).
Abbreviation run := (@Server.run Number).
Abbreviation effect := (@Server.effect Number).

(** Every request acts on the database in one of the three ways of
    [Server.effect]. *)
Lemma step_effect (db : Db.t Number) (r : Server.request) :
  effect db r (step db r).
Proof.
  destruct r as [mobile now rnd|f files|orderId status]; simpl.
  - destruct (generate_otp_shape rnd) as (code & G & _).
    rewrite (sendCode_unfold _ _ _ _ _ G). simpl.
    unfold Db.findOneAndUpdate.
    destruct (Db.updateOne mobile code (now + 300000) (Db.users db))
      as [[us' u']|] eqn:U; simpl.
    + eapply Server.effect_code_renewed; eassumption.
    + eapply Server.effect_user_inserted; eassumption.
  - rewrite createOrder_db. constructor.
  - constructor.
Qed.




(** The upsert keeps one record per mobile. *)
Lemma unique_mobiles_effect (db db' : Db.t Number) (r : Server.request) :
  effect db r db' -> Spec.unique_mobiles db -> Spec.unique_mobiles db'.
Proof.
  unfold Spec.unique_mobiles. intros E H.
  destruct E as [r|mobile now rnd code us' u' U|mobile now rnd code U];
    simpl; auto.
  - apply updateOne_mobiles in U. rewrite U. assumption.
  - rewrite map_app. simpl.
    apply updateOne_miss, findOne_None in U.
    apply NoDup_app; [assumption|repeat constructor; auto|].
    intros m Hm [<-|[]]. contradiction.
Qed.

Lemma unique_mobiles_run (rs : list Server.request) (db : Db.t Number) :
  Spec.unique_mobiles db -> Spec.unique_mobiles (run db rs).
Proof.
  revert db. induction rs as [|r rs IH]; simpl; intros db H; [assumption|].
  apply IH. eapply unique_mobiles_effect; [apply step_effect|assumption].
Qed.

(** A request that issues no new code for a mobile leaves the record found
    by that mobile as it was: the code stays valid until it expires. *)
Lemma findOne_effect (mobile : string) (db db' : Db.t Number)
    (r : Server.request) (u : User.t) :
  effect db r db' ->
  Spec.keeps_code mobile r = true ->
  Db.findOne mobile (Db.users db) = Some u ->
  Db.findOne mobile (Db.users db') = Some u.
Proof.
  intros E Hk Hf.
  destruct E as [r|m now rnd code us' u' U|m now rnd code U];
    simpl in *; auto.
  - apply negb_true_iff, String.eqb_neq in Hk.
    rewrite (updateOne_other m mobile code _ _ _ _ (not_eq_sym Hk) U).
    assumption.
  - now apply findOne_app_hit.
Qed.

Lemma findOne_run (mobile : string) (rs : list Server.request)
    (db : Db.t Number) (u : User.t) :
  forallb (Spec.keeps_code mobile) rs = true ->
  Db.findOne mobile (Db.users db) = Some u ->
  Db.findOne mobile (Db.users (run db rs)) = Some u.
Proof.
  revert db. induction rs as [|r rs IH]; simpl; intros db Hk Hf; [assumption|].
  apply andb_true_iff in Hk. destruct Hk as [Hr Hrs].
  apply IH; [assumption|].
  eapply findOne_effect; [apply step_effect|assumption..].
Qed.

(** The round trip with other requests in between: as long as no new code
    is issued for the mobile, the code returned by sendCode is accepted
    until it expires. *)
Lemma roundtrip_across_requests (mobile : string) (now later : Z)
    (rnd : nat -> nat) (rs : list Server.request) (db : Db.t Number) :
  forallb (Spec.keeps_code mobile) rs = true ->
  (later < now + 5 * 60 * 1000)%Z ->
  exists code user,
    snd (Auth.sendCode db mobile now rnd)
    = Responded 200 (Auth.OtpSent "OTP sent" code)
    /\ Auth.verifyCode (run (fst (Auth.sendCode db mobile now rnd)) rs) mobile
         (Some code) later
       = Responded 200 (Auth.Verified true (User._id user)).
Proof.
  intros Hk Hlater.
  destruct (sendCode_stores_code db mobile now rnd)
    as (code & user & Hr & Hf & Ho & He).
  exists code, user. split; [assumption|].
  unfold Auth.verifyCode, Auth.not_expired.
  rewrite (findOne_run mobile rs _ user Hk Hf), Ho, He. simpl.
  rewrite String.eqb_refl. simpl.
  replace (later <? now + 300000)%Z with true; [reflexivity|].
  symmetry. apply Z.ltb_lt. lia.
Qed.

End Invariants.

(** On a database that holds orders from the start, with a status outside
    the four among them, a run of requests leaves them as they are. *)
Example orders_are_left_alone :
  let db :=
    Sample.with_orders
      [Sample.order 2%N "2024-01-01" ["uploads/1700000000000-a.jpg"]
         "Pending";
       Sample.order 3%N "2024-02-02" ["uploads/1700000000000-b.jpg"]
         "Cancelled"] 4%N in
  let rs :=
    [Server.NewOrder (Sample.pickup (JS.Str Sample.alice) "2024-03-03")
       (Some [Sample.photo "c.jpg"]);
     Server.SetStatus "000000000000000000000003" (JS.Str "Scheduled");
     Server.SendOtp Sample.bob_mobile 1700000100000
       (Sample.draws [1; 2; 3; 4]%nat)] in
  map Order.status (Db.orders (Server.run db rs)) = ["Pending"; "Cancelled"]
  /\ List.length (Db.users (Server.run db rs)) = 2%nat.
Proof. split; reflexivity. Qed.

(** ** The upload demo *)

Section DemoApp.

Variable parse : string -> option Demo.json.
Variable stringify : Demo.json -> string.
Variable row : Demo.json -> option string.

Abbreviation readData := (Demo.readData parse).
Abbreviation upload := (Demo.upload parse stringify).
Abbreviation admin := (Demo.admin parse row).

Abbreviation unreadable := (Spec.unreadable parse).

Lemma readData_unreadable (disk : Demo.fs) :
  unreadable disk -> readData disk = Demo.JArr [].
Proof.
  intros [->|(raw & -> & Hraw)]; simpl; [reflexivity|].
  rewrite Hraw. reflexivity.
Qed.

(** An upload puts its record in front of the records read. *)
Lemma upload_prepends (disk : Demo.fs) (items : list Demo.json)
    (f : Demo.form) (uploaded : Demo.file) (now : Z) (iso : string) :
  readData disk = Demo.JArr items ->
  upload disk f (Some uploaded) now iso
  = (Some (stringify (Demo.JArr (Demo.newItem f uploaded now iso :: items))),
     Responded 200 Demo.UploadSuccessful).
Proof. intros H. unfold Demo.upload. rewrite H. reflexivity. Qed.

(** C10: when uploads/data.json is missing or holds text that does not
    parse, readData yields the empty list; the admin listing then answers
    200 with the "No uploads yet." page, and an upload with a file answers
    200 and writes a metadata file holding just the new record. *)
Theorem readData_missing_or_unparsable (disk : Demo.fs) :
  unreadable disk ->
  readData disk = Demo.JArr []
  /\ admin disk
     = Responded 200 (Demo.AdminDashboard "<p>No uploads yet.</p>")
  /\ forall (f : Demo.form) (uploaded : Demo.file) (now : Z) (iso : string),
       upload disk f (Some uploaded) now iso
       = (Some (stringify (Demo.JArr [Demo.newItem f uploaded now iso])),
          Responded 200 Demo.UploadSuccessful).
Proof.
  intros H. apply readData_unreadable in H.
  split; [assumption|]. split.
  - unfold Demo.admin. rewrite H. reflexivity.
  - intros f uploaded now iso. now apply upload_prepends.
Qed.

End DemoApp.

Lemma readData_missing_or_unparsable_witness :
  Spec.unreadable Sample.parse None
  /\ (Demo.readData Sample.parse None = Demo.JArr []
      /\ Demo.admin Sample.parse Sample.row None
         = Responded 200 (Demo.AdminDashboard "<p>No uploads yet.</p>")
      /\ forall (f : Demo.form) (uploaded : Demo.file) (now : Z)
           (iso : string),
           Demo.upload Sample.parse Sample.stringify None f (Some uploaded)
             now iso
           = (Some (Sample.stringify
                      (Demo.JArr [Demo.newItem f uploaded now iso])),
              Responded 200 Demo.UploadSuccessful)).
Proof.
  split; [left; reflexivity|].
  apply (readData_missing_or_unparsable Sample.parse Sample.stringify
           Sample.row None).
  left. reflexivity.
Defined.

(** The same with a metadata file that holds a truncated array. *)
Example upload_over_unparsable_file :
  Spec.unreadable Sample.parse (Some "[{")
  /\ Demo.upload Sample.parse Sample.stringify (Some "[{") Sample.details
       (Some Sample.image) 1700000000000 "2023-11-14T22:13:20.000Z"
     = (Some "[...]", Responded 200 Demo.UploadSuccessful)
  /\ Demo.upload Sample.parse Sample.stringify (Some "[{") Sample.details
       None 1700000000000 "2023-11-14T22:13:20.000Z"
     = (Some "[{", Responded 400 Demo.NoFileUploaded).
Proof.
  split; [right; exists "[{"; split; reflexivity|].
  split; reflexivity.
Qed.

(** ** The html-escape helper *)

Section Escaping.

Import Html.
Abbreviation chain := Spec.chain.

Lemma append_empty_r (s : string) : s ++ "" = s.
Proof. induction s as [|c s IH]; simpl; [reflexivity|now rewrite IH]. Qed.

Lemma append_assoc (a b c : string) : (a ++ b) ++ c = a ++ (b ++ c).
Proof. induction a as [|x a IH]; simpl; [reflexivity|now rewrite IH]. Qed.

Lemma replace_app (c : ascii) (by_ x y : string) :
  replace c by_ (x ++ y) = replace c by_ x ++ replace c by_ y.
Proof.
  induction x as [|a x IH]; simpl; [reflexivity|].
  destruct (Ascii.eqb a c); rewrite IH; [|reflexivity].
  now rewrite append_assoc.
Qed.

Lemma replace_one (c a : ascii) (by_ : string) :
  replace c by_ (String a "")
  = if Ascii.eqb a c then by_ else String a "".
Proof.
  cbn [replace]. destruct (Ascii.eqb a c); [apply append_empty_r|reflexivity].
Qed.

Lemma chain_app (x y : string) : chain (x ++ y) = chain x ++ chain y.
Proof. unfold Spec.chain. now rewrite !replace_app. Qed.

Lemma chain_one (a : ascii) : chain (String a "") = Spec.entity a.
Proof.
  unfold Spec.chain, Spec.entity.
  rewrite replace_one. destruct (Ascii.eqb a "&"); [reflexivity|].
  rewrite replace_one. destruct (Ascii.eqb a "<"); [reflexivity|].
  rewrite replace_one. destruct (Ascii.eqb a ">"); [reflexivity|].
  rewrite replace_one. destruct (Ascii.eqb a dquote); [reflexivity|].
  rewrite replace_one. destruct (Ascii.eqb a "'"); reflexivity.
Qed.

Lemma chain_escape_each (s : string) : chain s = Spec.escape_each s.
Proof.
  induction s as [|a s IH]; [reflexivity|].
  change (String a s) with (String a "" ++ s).
  rewrite chain_app, chain_one, IH. reflexivity.
Qed.

Lemma escapeHtml_Some (s : string) :
  escapeHtml (Some s) = Spec.escape_each s.
Proof.
  unfold escapeHtml. destruct s as [|a s]; [reflexivity|].
  change (JS.not (Some (String a s))) with false. cbv iota.
  apply chain_escape_each.
Qed.

(** X1: the five replacements of escapeHtml, run one after another, give
    the text in which each of the characters ampersand, less-than,
    greater-than, double quote and apostrophe is replaced by its entity
    once and every other character is kept: an ampersand that a
    replacement writes is not escaped again. An undefined value gives the
    empty string. *)
Theorem escapeHtml_one_pass (s : string) :
  escapeHtml (Some s) = Spec.escape_each s /\ escapeHtml None = "".
Proof. split; [apply escapeHtml_Some|reflexivity]. Qed.

Lemma every_app (p : ascii -> bool) (x y : string) :
  Spec.every p (x ++ y) = Spec.every p x && Spec.every p y.
Proof.
  induction x as [|a x IH]; simpl; [reflexivity|].
  rewrite IH. apply andb_assoc.
Qed.

Lemma entity_no_markup (a : ascii) :
  Spec.every (fun c => negb (Spec.markup c)) (Spec.entity a) = true.
Proof.
  unfold Spec.entity.
  destruct (Ascii.eqb a "&") eqn:E0; [reflexivity|].
  destruct (Ascii.eqb a "<") eqn:E1; [reflexivity|].
  destruct (Ascii.eqb a ">") eqn:E2; [reflexivity|].
  destruct (Ascii.eqb a dquote) eqn:E3; [reflexivity|].
  destruct (Ascii.eqb a "'") eqn:E4; [reflexivity|].
  cbn [Spec.every]. unfold Spec.markup. rewrite E1, E2, E3, E4. reflexivity.
Qed.

(** X2: whatever it is given, escapeHtml returns a text without
    less-than, greater-than, double quote or apostrophe. *)
Theorem escapeHtml_no_markup (str : JS.field) :
  Spec.every (fun c => negb (Spec.markup c)) (escapeHtml str) = true.
Proof.
  destruct str as [s|]; [|reflexivity].
  rewrite escapeHtml_Some.
  induction s as [|a s IH]; [reflexivity|].
  cbn [Spec.escape_each]. rewrite every_app, entity_no_markup, IH.
  reflexivity.
Qed.

Lemma entity_prefix_free (c d : ascii) (x y : string) :
  Spec.entity c ++ x = Spec.entity d ++ y -> c = d /\ x = y.
Proof.
  unfold Spec.entity.
  repeat match goal with
         | |- context [Ascii.eqb ?a ?b] =>
             destruct (Ascii.eqb_spec a b); [subst a|]
         end;
    cbn [append]; intros H; inversion H; subst; try (split; congruence);
    exfalso; congruence.
Qed.

Lemma escape_each_injective (s t : string) :
  Spec.escape_each s = Spec.escape_each t -> s = t.
Proof.
  revert t. induction s as [|c s IH]; intros [|d t]; cbn [Spec.escape_each];
    intros H.
  - reflexivity.
  - exfalso. revert H. unfold Spec.entity.
    repeat match goal with
           | |- context [Ascii.eqb ?a ?b] => destruct (Ascii.eqb a b)
           end; discriminate.
  - exfalso. revert H. unfold Spec.entity.
    repeat match goal with
           | |- context [Ascii.eqb ?a ?b] => destruct (Ascii.eqb a b)
           end; discriminate.
  - apply entity_prefix_free in H. destruct H as [-> H].
    f_equal. now apply IH.
Qed.

(** X3: escapeHtml loses nothing: two texts with the same escaped form are
    the same text. *)
Theorem escapeHtml_injective (s t : string) :
  escapeHtml (Some s) = escapeHtml (Some t) -> s = t.
Proof. rewrite !escapeHtml_Some. apply escape_each_injective. Qed.

End Escaping.

Lemma escapeHtml_injective_witness :
  Html.escapeHtml (Some "T&J <b>") = Html.escapeHtml (Some "T&J <b>")
  /\ "T&J <b>" = "T&J <b>".
Proof.
  split; [reflexivity|].
  apply (escapeHtml_injective "T&J <b>" "T&J <b>"). reflexivity.
Defined.

(** ** Stored file names *)

Section FileNames.

Lemma every_impl (p q : ascii -> bool) (s : string) :
  (forall c, p c = true -> q c = true) ->
  Spec.every p s = true -> Spec.every q s = true.
Proof.
  intros Hpq. induction s as [|c s IH]; simpl; [reflexivity|].
  intros H. apply andb_true_iff in H. destruct H as [Hc Hs].
  rewrite (Hpq c Hc), (IH Hs). reflexivity.
Qed.

Lemma uint_digits (d : Decimal.uint) :
  Spec.every OtpGenerator.is_digit (NilEmpty.string_of_uint d) = true.
Proof. induction d; simpl; auto. Qed.

Lemma uint_zero_digits (d : Decimal.uint) :
  Spec.every OtpGenerator.is_digit (NilZero.string_of_uint d) = true
  /\ NilZero.string_of_uint d <> "".
Proof.
  split.
  - destruct d; try reflexivity; apply (uint_digits (_ d)).
  - destruct d; discriminate.
Qed.

(** A printed integer is an optional minus sign and then digits, at least
    one. *)
Lemma decimal_shape (n : Z) :
  exists digits,
    digits <> ""
    /\ Spec.every OtpGenerator.is_digit digits = true
    /\ (decimal n = digits \/ decimal n = String "-" digits).
Proof.
  unfold decimal. destruct (Z.to_int n) as [d|d]; simpl;
    exists (NilZero.string_of_uint d);
    destruct (uint_zero_digits d) as [Hd Hne]; auto.
Qed.

Lemma decimal_numeral (n : Z) :
  Spec.every Spec.numeral_char (decimal n) = true.
Proof.
  destruct (decimal_shape n) as (ds & _ & Hd & [->| ->]).
  - eapply every_impl; [|exact Hd].
    intros c Hc. unfold Spec.numeral_char. now rewrite Hc.
  - simpl. eapply every_impl; [|exact Hd].
    intros c Hc. unfold Spec.numeral_char. now rewrite Hc.
Qed.

Lemma decimal_head (n : Z) :
  exists c rest, decimal n = String c rest /\ Spec.numeral_char c = true.
Proof.
  destruct (decimal_shape n) as (ds & Hne & Hd & [->| ->]).
  - destruct ds as [|c rest]; [contradiction|].
    exists c, rest. split; [reflexivity|].
    simpl in Hd. apply andb_true_iff in Hd. destruct Hd as [Hc _].
    unfold Spec.numeral_char. now rewrite Hc.
  - now exists "-"%char, ds.
Qed.

Lemma decimal_injective (n m : Z) : decimal n = decimal m -> n = m.
Proof.
  unfold decimal. intros H.
  assert (Hnn : forall z, Z.to_int z <> Decimal.Pos Decimal.Nil
                          /\ Z.to_int z <> Decimal.Neg Decimal.Nil).
  { intros [|p|p]; simpl; split; try discriminate;
      intros E; inversion E as [E'];
      now apply DecimalPos.Unsigned.to_uint_nonnil in E'. }
  assert (Hn := NilZero.isi (Z.to_int n) (proj1 (Hnn n)) (proj2 (Hnn n))).
  assert (Hm := NilZero.isi (Z.to_int m) (proj1 (Hnn m)) (proj2 (Hnn m))).
  rewrite H, Hm in Hn. inversion Hn as [E].
  rewrite <- (DecimalZ.of_to n), <- (DecimalZ.of_to m). now rewrite E.
Qed.

Lemma numeral_kept (c : ascii) :
  Spec.numeral_char c = true -> DemoStorage.kept c = true.
Proof.
  unfold Spec.numeral_char, OtpGenerator.is_digit, DemoStorage.kept.
  intros H. apply orb_true_iff in H. destruct H as [H|H].
  - rewrite H. now rewrite !orb_true_r.
  - apply Ascii.eqb_eq in H. subst c. reflexivity.
Qed.

Lemma name_char_no_separator (c : ascii) :
  Spec.name_char c = true -> Spec.separator c = false.
Proof.
  unfold Spec.name_char, Spec.separator. intros H.
  destruct (Ascii.eqb_spec c "/") as [->|_]; [discriminate H|].
  destruct (Ascii.eqb_spec c "092") as [->|_]; [discriminate H|].
  reflexivity.
Qed.

Lemma sanitize_name_chars (name : string) :
  Spec.every Spec.name_char (DemoStorage.sanitize name) = true.
Proof.
  induction name as [|c name IH]; simpl; [reflexivity|].
  rewrite IH, andb_true_r. unfold Spec.name_char.
  destruct (DemoStorage.kept c) eqn:K; [now rewrite K|reflexivity].
Qed.

(** X4: the name under which the demo stores an upload is made of letters,
    digits, dots, hyphens and underscores only, whatever the name the
    client sent and whatever the clock reads; in particular it holds no
    path separator. *)
Theorem demo_filename_safe (now : Z) (originalname : string) :
  let name := DemoStorage.filename now originalname in
  Spec.every Spec.name_char name = true
  /\ Spec.every (fun c => negb (Spec.separator c)) name = true.
Proof.
  assert (H : Spec.every Spec.name_char
                (DemoStorage.filename now originalname) = true).
  { unfold DemoStorage.filename. rewrite every_app.
    apply andb_true_iff. split.
    - eapply every_impl; [|apply decimal_numeral].
      intros c Hc. unfold Spec.name_char. now rewrite (numeral_kept c Hc).
    - cbn [append Spec.every]. now rewrite sanitize_name_chars. }
  split; [exact H|].
  eapply every_impl; [|exact H].
  intros c Hc. now rewrite (name_char_no_separator c Hc).
Qed.

(** X5: no upload is stored under the name of the metadata file: a stored
    name starts with a digit or a minus sign, so it is never
    "data.json". *)
Theorem demo_filename_not_metadata (now : Z) (originalname : string) :
  DemoStorage.filename now originalname <> "data.json".
Proof.
  unfold DemoStorage.filename.
  destruct (decimal_head now) as (c & rest & -> & Hc).
  simpl. intros H. inversion H; subst c. discriminate Hc.
Qed.

(** Two printed integers followed by a hyphen and the rest of a name: where
    the whole names agree, the integers and the rests agree. *)
Lemma digits_split (a b x y : string) :
  Spec.every OtpGenerator.is_digit a = true ->
  Spec.every OtpGenerator.is_digit b = true ->
  a ++ String "-" x = b ++ String "-" y -> a = b /\ x = y.
Proof.
  revert b. induction a as [|c a IH]; intros [|d b]; simpl; intros Ha Hb H.
  - inversion H. auto.
  - inversion H; subst d. discriminate Hb.
  - inversion H; subst c. discriminate Ha.
  - apply andb_true_iff in Ha. apply andb_true_iff in Hb.
    inversion H; subst d.
    destruct (IH b (proj2 Ha) (proj2 Hb) H2) as [-> ->]. auto.
Qed.

Lemma decimal_split (n m : Z) (x y : string) :
  decimal n ++ String "-" x = decimal m ++ String "-" y -> n = m /\ x = y.
Proof.
  intros H.
  destruct (decimal_shape n) as (a & Hane & Ha & [En|En]);
    destruct (decimal_shape m) as (b & Hbne & Hb & [Em|Em]);
    rewrite En, Em in H.
  - destruct (digits_split _ _ _ _ Ha Hb H) as [E ->].
    split; [|reflexivity]. apply decimal_injective. congruence.
  - exfalso. destruct a as [|c a]; [contradiction|].
    simpl in H. inversion H; subst c. discriminate Ha.
  - exfalso. destruct b as [|c b]; [contradiction|].
    simpl in H. inversion H; subst c. discriminate Hb.
  - simpl in H. inversion H as [H'].
    destruct (digits_split _ _ _ _ Ha Hb H') as [E ->].
    split; [|reflexivity]. apply decimal_injective. congruence.
Qed.

(** X6: the photo storage of the order routes gives two uploads the same
    name only when the clock read the same millisecond and the client sent
    the same original name. *)
Theorem order_filename_injective (now now' : Z) (name name' : string) :
  OrderStorage.filename now name = OrderStorage.filename now' name' ->
  now = now' /\ name = name'.
Proof. unfold OrderStorage.filename. apply decimal_split. Qed.

(** X7: the demo gives two uploads the same stored name exactly when the
    clock read the same millisecond and the original names agree after
    every character outside letters, digits, dot and hyphen is replaced by
    an underscore. *)
Theorem demo_filename_collision (now now' : Z) (name name' : string) :
  DemoStorage.filename now name = DemoStorage.filename now' name'
  <-> now = now' /\ DemoStorage.sanitize name = DemoStorage.sanitize name'.
Proof.
  unfold DemoStorage.filename. split.
  - apply decimal_split.
  - intros [-> ->]. reflexivity.
Qed.

End FileNames.

Lemma order_filename_injective_witness :
  OrderStorage.filename 1700000000000 "a.jpg"
  = OrderStorage.filename 1700000000000 "a.jpg"
  /\ (1700000000000 = 1700000000000 /\ "a.jpg" = "a.jpg")%Z.
Proof.
  split; [reflexivity|].
  apply (order_filename_injective 1700000000000 1700000000000 "a.jpg" "a.jpg").
  reflexivity.
Defined.

(** Two different original names that the demo stores under one name when
    they arrive in the same millisecond. *)
Example demo_filename_collides :
  DemoStorage.filename 1700000000000 "my photo.jpg"
  = DemoStorage.filename 1700000000000 "my_photo.jpg".
Proof. reflexivity. Qed.

(** ** The auth routes, further *)

Section AuthFurther.

Context {Number : Type}.

Abbreviation run := (@Server.run Number).
Abbreviation effect := (@Server.effect Number).

(** X8: once sendCode has answered for a mobile, verifyCode for that mobile
    accepts exactly the code of the answer, and exactly while the clock
    reads less than five minutes past the reading of sendCode; any other
    code, one issued earlier included, and any later instant get the 400
    answer. *)
Theorem verifyCode_after_sendCode (db : Db.t Number) (mobile : string)
    (now : Z) (rnd : nat -> nat) :
  exists code user,
    snd (Auth.sendCode db mobile now rnd)
    = Responded 200 (Auth.OtpSent "OTP sent" code)
    /\ forall (supplied : JS.field) (later : Z),
         Auth.verifyCode (fst (Auth.sendCode db mobile now rnd)) mobile
           supplied later
         = if JS.strict_eq (Some code) supplied && (later <? now + 300000)%Z
           then Responded 200 (Auth.Verified true (User._id user))
           else Responded 400 (Auth.Failed "Invalid or expired OTP").
Proof.
  destruct (sendCode_stores_code db mobile now rnd)
    as (code & user & Hr & Hf & Ho & He).
  exists code, user. split; [assumption|].
  intros supplied later.
  unfold Auth.verifyCode, Auth.not_expired. rewrite Hf, Ho, He. reflexivity.
Qed.

Lemma updateOne_found (mobile code : string) (expiry : Z) (us us' : list User.t)
    (u' : User.t) :
  Db.updateOne mobile code expiry us = Some (us', u') ->
  exists u,
    Db.findOne mobile us = Some u
    /\ u' = {| User._id := User._id u; User.mobile := User.mobile u;
               User.otp := Some code; User.otpExpiry := Some expiry |}.
Proof.
  revert us'. unfold Db.findOne.
  induction us as [|v rest IH]; simpl; intros us' H; [discriminate|].
  destruct (String.eqb (User.mobile v) mobile).
  - inversion H; subst. now exists v.
  - destruct (Db.updateOne mobile code expiry rest) as [[rest' w]|];
      [|discriminate].
    inversion H; subst. now apply (IH rest').
Qed.

(** X9: sendCode is an upsert keyed by the mobile. When a record with the
    mobile exists, the first such record keeps its identifier and mobile
    and gets the new code and expiry, no record is added and no identifier
    is used up; otherwise one record is appended, under the next fresh
    identifier. The orders are never touched. *)
Theorem sendCode_upsert (db : Db.t Number) (mobile : string) (now : Z)
    (rnd : nat -> nat) :
  let db' := fst (Auth.sendCode db mobile now rnd) in
  Db.orders db' = Db.orders db
  /\ exists code,
       snd (Auth.sendCode db mobile now rnd)
       = Responded 200 (Auth.OtpSent "OTP sent" code)
       /\ ((exists u,
              Db.findOne mobile (Db.users db) = Some u
              /\ Db.findOne mobile (Db.users db')
                 = Some {| User._id := User._id u; User.mobile := User.mobile u;
                           User.otp := Some code;
                           User.otpExpiry := Some (now + 300000)%Z |}
              /\ map User._id (Db.users db') = map User._id (Db.users db)
              /\ Db.next_id db' = Db.next_id db)
           \/ (Db.findOne mobile (Db.users db) = None
               /\ Db.users db'
                  = (Db.users db
                     ++ [{| User._id := Db.next_id db; User.mobile := mobile;
                            User.otp := Some code;
                            User.otpExpiry := Some (now + 300000)%Z |}])%list
               /\ Db.next_id db' = N.succ (Db.next_id db))).
Proof.
  destruct (generate_otp_shape rnd) as (code & G & _).
  rewrite (sendCode_unfold _ _ _ _ _ G). cbn [fst snd].
  unfold Db.findOneAndUpdate.
  destruct (Db.updateOne mobile code (now + 300000) (Db.users db))
    as [[us' u']|] eqn:U; cbn [fst Db.users Db.orders Db.next_id].
  - split; [reflexivity|]. exists code. split; [reflexivity|]. left.
    destruct (updateOne_found _ _ _ _ _ _ U) as (u & Hu & ->).
    exists u. split; [assumption|].
    split; [apply (updateOne_hit _ _ _ _ _ _ U)|].
    split; [apply (updateOne_ids _ _ _ _ _ _ U)|reflexivity].
  - split; [reflexivity|]. exists code. split; [reflexivity|]. right.
    split; [now apply updateOne_miss in U|]. split; reflexivity.
Qed.

Lemma findOne_app_other (mobile : string) (us : list User.t) (u : User.t) :
  User.mobile u <> mobile ->
  Db.findOne mobile (us ++ [u]) = Db.findOne mobile us.
Proof.
  intros Hne. unfold Db.findOne.
  induction us as [|v rest IH]; simpl.
  - apply String.eqb_neq in Hne. now rewrite Hne.
  - destruct (String.eqb (User.mobile v) mobile); auto.
Qed.

(** A request that issues no new code for a mobile leaves the lookup by
    that mobile as it was, found or not. *)
Lemma findOne_kept (mobile : string) (db db' : Db.t Number)
    (r : Server.request) :
  effect db r db' ->
  Spec.keeps_code mobile r = true ->
  Db.findOne mobile (Db.users db') = Db.findOne mobile (Db.users db).
Proof.
  intros E Hk.
  destruct E as [r|m now rnd code us' u' U|m now rnd code U];
    simpl in *; auto.
  - apply negb_true_iff, String.eqb_neq in Hk.
    apply (updateOne_other m mobile code _ _ _ _ (not_eq_sym Hk) U).
  - apply negb_true_iff, String.eqb_neq in Hk.
    now apply findOne_app_other.
Qed.

(** X10: what verifyCode answers for a mobile does not depend on the
    requests served in between, as long as none of them is a send-otp for
    that mobile: creating orders, changing statuses and issuing codes for
    other mobiles neither invalidate a code nor make one valid. *)
Theorem verifyCode_unaffected (db : Db.t Number) (rs : list Server.request)
    (mobile : string) (supplied : JS.field) (later : Z) :
  forallb (Spec.keeps_code mobile) rs = true ->
  Auth.verifyCode (run db rs) mobile supplied later
  = Auth.verifyCode db mobile supplied later.
Proof.
  revert db. induction rs as [|r rs IH]; simpl; intros db Hk; [reflexivity|].
  apply andb_true_iff in Hk. destruct Hk as [Hr Hrs].
  rewrite (IH _ Hrs). unfold Auth.verifyCode.
  rewrite (findOne_kept mobile db _ r (step_effect db r) Hr).
  reflexivity.
Qed.

(** X11: starting from the empty database, whatever requests are served,
    no two user records hold the same mobile. *)
Theorem one_user_per_mobile (rs : list Server.request) :
  Spec.unique_mobiles (run Db.empty rs).
Proof.
  apply unique_mobiles_run. unfold Spec.unique_mobiles. simpl. constructor.
Qed.

End AuthFurther.

Lemma verifyCode_unaffected_witness :
  let rs :=
    [Server.NewOrder (Sample.pickup (JS.Str Sample.alice) "2024-01-01")
       (Some [Sample.photo "a.jpg"]);
     Server.SendOtp "8888888888" 1700000100000 (Sample.draws [1; 2; 3; 4]%nat);
     Server.SetStatus "000000000000000000000002" (JS.Str "Scheduled")] in
  forallb (Spec.keeps_code Sample.alice_mobile) rs = true
  /\ Auth.verifyCode (Server.run Sample.registered rs)
       Sample.alice_mobile (Some "4a7z") 1700000200000
     = Auth.verifyCode Sample.registered Sample.alice_mobile (Some "4a7z")
         1700000200000.
Proof.
  intros rs. split; [reflexivity|].
  apply (verifyCode_unaffected Sample.registered rs Sample.alice_mobile
           (Some "4a7z") 1700000200000).
  reflexivity.
Defined.

(** ** What the routes keep *)

Section Kept.

Context {Number : Type}.

Abbreviation run := (@Server.run Number).
Abbreviation effect := (@Server.effect Number).

Lemma updateOne_identities (mobile code : string) (expiry : Z)
    (us us' : list User.t) (u' : User.t) :
  Db.updateOne mobile code expiry us = Some (us', u') ->
  map Spec.identity us' = map Spec.identity us.
Proof.
  revert us'. induction us as [|v rest IH]; simpl; intros us' H; [discriminate|].
  destruct (String.eqb (User.mobile v) mobile).
  - inversion H; subst. reflexivity.
  - destruct (Db.updateOne mobile code expiry rest) as [[rest' w]|];
      [|discriminate].
    inversion H; subst. simpl. f_equal. now apply IH.
Qed.

Lemma effect_keeps (db db' : Db.t Number) (r : Server.request) :
  effect db r db' ->
  (exists us,
     map Spec.identity (Db.users db')
     = (map Spec.identity (Db.users db) ++ us)%list)
  /\ Db.orders db' = Db.orders db.
Proof.
  intros E.
  destruct E as [r|mobile now rnd code us' u' U|mobile now rnd code U];
    simpl; (split; [|reflexivity]).
  - exists []. now rewrite app_nil_r.
  - exists []. rewrite app_nil_r. apply (updateOne_identities _ _ _ _ _ _ U).
  - eexists. rewrite map_app. reflexivity.
Qed.

(** X18: no route deletes or rewrites a record. Over any run, from any
    database, the users present keep their identifier and mobile, in the
    same positions, and new users are appended after them; the orders
    present are left exactly as they are. *)
Theorem records_are_kept (rs : list Server.request) (db : Db.t Number) :
  (exists us,
     map Spec.identity (Db.users (run db rs))
     = (map Spec.identity (Db.users db) ++ us)%list)
  /\ Db.orders (run db rs) = Db.orders db.
Proof.
  revert db. induction rs as [|r rs IH]; simpl; intros db.
  - split; [|reflexivity]. exists []. now rewrite app_nil_r.
  - destruct (IH (Server.step db r)) as [(us2 & Hu2) Ho2].
    destruct (effect_keeps db _ r (step_effect db r)) as [(us1 & Hu1) Ho1].
    split.
    + exists (us1 ++ us2)%list. rewrite Hu2, Hu1. now rewrite app_assoc.
    + now rewrite Ho2.
Qed.

End Kept.

(** ** The upload demo, further *)

Section DemoFurther.

Variable parse : string -> option Demo.json.
Variable stringify : Demo.json -> string.
Variable row : Demo.json -> option string.

Abbreviation readData := (Demo.readData parse).
Abbreviation upload := (Demo.upload parse stringify).
Abbreviation admin := (Demo.admin parse row).

(** X19: when uploads/data.json holds well-formed JSON that is not an
    array, readData hands that value on, and both routes fail on it with a
    TypeError: an upload with a file is not recorded and the file is left
    as it is, and the admin page is not produced. *)
Theorem metadata_not_an_array (raw : string) (v : Demo.json) (f : Demo.form)
    (uploaded : Demo.file) (now : Z) (iso : string) :
  parse raw = Some v ->
  (forall items, v <> Demo.JArr items) ->
  readData (Some raw) = v
  /\ upload (Some raw) f (Some uploaded) now iso
     = (Some raw, Rejected JS.TypeError)
  /\ admin (Some raw) = Rejected JS.TypeError.
Proof.
  intros Hp Hv.
  assert (Hr : readData (Some raw) = v) by (simpl; now rewrite Hp).
  split; [assumption|].
  unfold Demo.upload, Demo.admin. rewrite Hr.
  destruct v; try (split; reflexivity).
  exfalso. now apply (Hv items).
Qed.

Lemma rows_of_length (items : list Demo.json) (rs : list string) :
  Demo.rows_of row items = Some rs -> List.length rs = List.length items.
Proof.
  revert rs. induction items as [|it items IH]; simpl; intros rs H.
  - inversion H. reflexivity.
  - destruct (row it) as [r|]; [|discriminate].
    destruct (Demo.rows_of row items) as [rs'|]; [|discriminate].
    inversion H; subst. simpl. f_equal. now apply IH.
Qed.

Lemma join_nonempty (sep r : string) (rs : list string) :
  r <> "" -> Demo.is_empty (Demo.join sep (r :: rs)) = false.
Proof.
  intros Hr. destruct r as [|c r]; [contradiction|].
  destruct rs; reflexivity.
Qed.

(** X21: the admin page over array metadata whose rows all render, none
    to the empty string: the page holds the rows joined by newlines, in the
    order of the file, and the "No uploads yet." notice takes their place
    exactly when there is no record. *)
Theorem admin_page (disk : Demo.fs) (items : list Demo.json)
    (rs : list string) :
  readData disk = Demo.JArr items ->
  Demo.rows_of row items = Some rs ->
  Forall (fun r => r <> "") rs ->
  List.length rs = List.length items
  /\ admin disk
     = Responded 200
         (Demo.AdminDashboard
            (match items with
             | [] => "<p>No uploads yet.</p>"
             | _ :: _ => Demo.join Demo.newline rs
             end)).
Proof.
  intros Hr R Hne. split; [now apply rows_of_length|].
  unfold Demo.admin. rewrite Hr, R.
  destruct items as [|it items].
  - simpl in R. inversion R; subst. reflexivity.
  - apply rows_of_length in R as Hlen.
    destruct rs as [|r rs]; [discriminate|].
    inversion Hne; subst. now rewrite join_nonempty.
Qed.

End DemoFurther.

Lemma metadata_not_an_array_witness :
  Sample.parse_more "{}" = Some (Demo.JObj [])
  /\ (forall items, Demo.JObj [] <> Demo.JArr items)
  /\ Demo.readData Sample.parse_more (Some "{}") = Demo.JObj []
  /\ Demo.upload Sample.parse_more Sample.stringify (Some "{}") Sample.details
       (Some Sample.image) 1700000000000 "2023-11-14T22:13:20.000Z"
     = (Some "{}", Rejected JS.TypeError)
  /\ Demo.admin Sample.parse_more Sample.row (Some "{}")
     = Rejected JS.TypeError.
Proof.
  split; [reflexivity|]. split; [discriminate|].
  apply (metadata_not_an_array Sample.parse_more Sample.stringify Sample.row
           "{}" (Demo.JObj []) Sample.details Sample.image 1700000000000
           "2023-11-14T22:13:20.000Z"); [reflexivity|discriminate].
Defined.

Lemma admin_page_witness :
  let disk := Some "[2]" in
  let items := [Sample.second_record; Sample.first_record] in
  let rs := ["<div>Bob</div>"; "<div>Alice</div>"] in
  Demo.readData Sample.parse_pair disk = Demo.JArr items
  /\ Demo.rows_of Sample.row_name items = Some rs
  /\ Forall (fun r => r <> "") rs
  /\ List.length rs = List.length items
  /\ Demo.admin Sample.parse_pair Sample.row_name disk
     = Responded 200 (Demo.AdminDashboard (Demo.join Demo.newline rs)).
Proof.
  intros disk items rs.
  assert (Hne : Forall (fun r => r <> "") rs)
    by (repeat constructor; discriminate).
  split; [reflexivity|]. split; [reflexivity|]. split; [exact Hne|].
  apply (admin_page Sample.parse_pair Sample.row_name disk items rs);
    [reflexivity|reflexivity|exact Hne].
Defined.

(** The page for the two records of the example, the later upload first as
    in the file; for one record; and for an empty and a missing file. *)
Example admin_page_examples :
  Demo.admin Sample.parse_pair Sample.row_name (Some "[2]")
  = Responded 200
      (Demo.AdminDashboard
         ("<div>Bob</div>" ++ Demo.newline ++ "<div>Alice</div>"))
  /\ Demo.admin Sample.parse_pair Sample.row_name (Some "[...]")
     = Responded 200 (Demo.AdminDashboard "<div>Alice</div>")
  /\ Demo.admin Sample.parse_pair Sample.row_name (Some "[]")
     = Responded 200 (Demo.AdminDashboard "<p>No uploads yet.</p>")
  /\ Demo.admin Sample.parse_pair Sample.row_name None
     = Responded 200 (Demo.AdminDashboard "<p>No uploads yet.</p>").
Proof. repeat split. Qed.

(** ** Across the routes *)

Section AcrossRoutes.

Context {Number : Type}.

Abbreviation run := (@Server.run Number).
Abbreviation effect := (@Server.effect Number).

Lemma updateOne_has_code (mobile code : string) (expiry : Z)
    (us us' : list User.t) (u' : User.t) :
  Db.updateOne mobile code expiry us = Some (us', u') ->
  forallb Spec.has_code us = true -> forallb Spec.has_code us' = true.
Proof.
  revert us'. induction us as [|v rest IH]; simpl; intros us' H Hall;
    [discriminate|].
  apply andb_true_iff in Hall. destruct Hall as [Hv Hrest].
  destruct (String.eqb (User.mobile v) mobile).
  - inversion H; subst. simpl. assumption.
  - destruct (Db.updateOne mobile code expiry rest) as [[rest' w]|];
      [|discriminate].
    inversion H; subst. simpl. rewrite Hv. now apply IH.
Qed.

Lemma has_code_effect (db db' : Db.t Number) (r : Server.request) :
  effect db r db' ->
  forallb Spec.has_code (Db.users db) = true ->
  forallb Spec.has_code (Db.users db') = true.
Proof.
  intros E H.
  destruct E as [r|mobile now rnd code us' u' U|mobile now rnd code U];
    simpl; auto.
  - now apply (updateOne_has_code _ _ _ _ _ _ U).
  - rewrite forallb_app, H. reflexivity.
Qed.

Lemma has_code_run (rs : list Server.request) (db : Db.t Number) :
  forallb Spec.has_code (Db.users db) = true ->
  forallb Spec.has_code (Db.users (run db rs)) = true.
Proof.
  revert db. induction rs as [|r rs IH]; simpl; intros db H; [assumption|].
  apply IH. eapply has_code_effect; [apply step_effect|assumption].
Qed.

(** X22: a verify-otp request that carries no code is never accepted, for
    any mobile and at any time, on any database reached from the empty one:
    every user record the routes create holds a code, so an undefined code
    equals none of them. *)
Theorem missing_code_refused (rs : list Server.request) (mobile : string)
    (later : Z) :
  Auth.verifyCode (run Db.empty rs) mobile None later
  = Responded 400 (Auth.Failed "Invalid or expired OTP").
Proof.
  pose proof (has_code_run rs Db.empty eq_refl) as H.
  unfold Auth.verifyCode.
  destruct (Db.findOne mobile (Db.users (run Db.empty rs))) as [u|] eqn:F;
    [|reflexivity].
  apply find_some in F. destruct F as [Hin _].
  rewrite forallb_forall in H. specialize (H u Hin).
  unfold Spec.has_code in H. destruct (User.otp u); [reflexivity|discriminate].
Qed.

End AcrossRoutes.
